(** * Order tracking: catalog search, order store and order lifecycle

    A shallow embedding of [app.py]: the catalog search
    ([filter_products], [arrival_info]), the JSON order store
    ([load_orders], [save_orders]) and the order lifecycle
    ([create_order], [update_order_status], [save_signature]).

    Python dictionaries are finite maps from strings to JSON values, the
    order file is the JSON document it holds, exceptions are an error
    result, and the clock and the id generator are inputs of the
    operations that read them. *)

From Stdlib Require Import ZArith Ascii.
From stdpp Require Import gmap strings list fin_maps.

Set Warnings "-register-all".

(** ** JSON values *)

(** What [json.load] returns and [json.dump] writes.  A float is kept as
    its IEEE-754 bit pattern; the program never computes with one. *)
Inductive json : Type :=
  | JNull
  | JBool (b : bool)
  | JInt (z : Z)
  | JFloat (bits : Z)
  | JStr (s : string)
  | JArr (l : list json)
  | JObj (m : gmap string json).

Abbreviation dict := (gmap string json).

(** Python truthiness ([bool(v)], as tested by [if not v]). *)
Definition truthy (v : json) : bool :=
  match v with
  | JNull => false
  | JBool b => b
  | JInt z => negb (z =? 0)%Z
  | JFloat bits => negb (Z.land bits (2 ^ 63 - 1) =? 0)%Z
  | JStr s => negb (String.eqb s "")
  | JArr l => match l with [] => false | _ => true end
  | JObj m => negb (size m =? 0)%nat
  end.

(** [v == s] for a string [s]: only an equal string compares equal. *)
Definition eq_str (v : json) (s : string) : bool :=
  match v with
  | JStr t => String.eqb t s
  | _ => false
  end.

(** [d.get(k)]: a missing key reads as [None]. *)
Definition get (k : string) (d : dict) : json := default JNull (d !! k).

(** [d.get(k, dflt)]. *)
Definition get_or (k : string) (dflt : json) (d : dict) : json :=
  default dflt (d !! k).

(** [d.setdefault(k, v)]: writes only where the key is absent. *)
Definition setdefault (k : string) (v : json) (d : dict) : dict :=
  match d !! k with
  | Some _ => d
  | None => <[k := v]> d
  end.

(** ** Exceptions and the order file *)

Inductive exn : Type :=
  | ValueError (msg : string)
  | TypeError
  | AttributeError
  | UnicodeDecodeError.

(** The [ValueError]s the engine raises, under the names of the error
    taxonomy. *)
Definition ProductNotFound : exn := ValueError "Producto no encontrado en padrón".
Definition OrderNotFound : exn := ValueError "Pedido no encontrado".
Definition InvalidTransition_llego : exn :=
  ValueError "Secuencia inválida: ya no está pendiente".
Definition InvalidTransition_avisado : exn := ValueError "Primero marca como 'Llegó'".
Definition InvalidTransition_entregado : exn :=
  ValueError "Primero marca como 'Avisado'".
Definition SignatureRequired : exn := ValueError "Captura la firma antes de entregar".
Definition InvalidAction : exn := ValueError "Acción no válida".

Inductive result (A : Type) : Type :=
  | Ok (a : A)
  | Raise (e : exn).
Arguments Ok {A} a.
Arguments Raise {A} e.

(** What [ORDERS_FILE] holds, by what opening and decoding it does:
    - [Missing]: [ORDERS_FILE.exists()] is false;
    - [NotUtf8]: reading the text raises [UnicodeDecodeError];
    - [NotJson]: [json.load] raises [JSONDecodeError];
    - [Json raw]: [json.load] returns [raw].
    Text is taken to be encodable as UTF-8, so [json.dump] always
    writes. *)
Inductive orders_file : Type :=
  | Missing
  | NotUtf8
  | NotJson
  | Json (raw : json).

(** An operation reads and writes the order file and may raise. *)
Definition M (A : Type) : Type := orders_file → result A * orders_file.

Definition ret {A} (a : A) : M A := λ f, (Ok a, f).
Definition raise {A} (e : exn) : M A := λ f, (Raise e, f).
Definition bind {A B} (m : M A) (k : A → M B) : M B :=
  λ f, match m f with
       | (Ok a, f') => k a f'
       | (Raise e, f') => (Raise e, f')
       end.

Notation "'let!' x ':=' m 'in' k" := (bind m (λ x, k))
  (at level 10, x name, m at level 100, k at level 200).
Notation "'do!' m 'in' k" := (bind m (λ _, k))
  (at level 10, m at level 100, k at level 200).

(** The [setdefault] calls of [load_orders], in order. *)
Definition normalize (o : dict) : dict :=
  setdefault "firma" JNull
    (setdefault "fecha_entrega" JNull
      (setdefault "fecha_aviso" JNull
        (setdefault "fecha_llegada" JNull
          (setdefault "estado" (JStr "pendiente") o)))).

(** The loop [for o in raw] over a list: an element that is not a dict
    has no [setdefault]. *)
Fixpoint normalize_all (raw : list json) : result (list dict) :=
  match raw with
  | [] => Ok []
  | JObj o :: rest =>
      match normalize_all rest with
      | Ok os => Ok (normalize o :: os)
      | Raise e => Raise e
      end
  | _ :: _ => Raise AttributeError
  end.

(** [for o in raw] for any JSON value: a dict iterates over its keys and
    a string over its characters, both strings; scalars do not
    iterate. *)
Definition normalize_raw (raw : json) : result (list dict) :=
  match raw with
  | JArr l => normalize_all l
  | JObj m => if (size m =? 0)%nat then Ok [] else Raise AttributeError
  | JStr s => if String.eqb s "" then Ok [] else Raise AttributeError
  | JNull | JBool _ | JInt _ | JFloat _ => Raise TypeError
  end.

Definition load_orders : M (list dict) :=
  λ f, match f with
       | Missing => (Ok [], f)
       | NotUtf8 => (Raise UnicodeDecodeError, f)
       | NotJson => (Ok [], f)
       | Json raw => (normalize_raw raw, f)
       end.

Definition save_orders (orders : list dict) : M unit :=
  λ _, (Ok tt, Json (JArr (JObj <$> orders))).

(** ** Text *)

(** [str.strip()] and [str.upper()] on the ASCII range; other bytes pass
    through. *)
Definition is_space (c : ascii) : bool :=
  let n := nat_of_ascii c in
  ((9 <=? n) && (n <=? 13) || (28 <=? n) && (n <=? 32))%nat.

Fixpoint lstrip (s : string) : string :=
  match s with
  | String c r => if is_space c then lstrip r else s
  | EmptyString => EmptyString
  end.

Definition strip (s : string) : string :=
  String.rev (lstrip (String.rev (lstrip s))).

Definition upper_char (c : ascii) : ascii :=
  let n := nat_of_ascii c in
  if ((97 <=? n) && (n <=? 122))%nat then ascii_of_nat (n - 32) else c.

Fixpoint upper (s : string) : string :=
  match s with
  | String c r => String (upper_char c) (upper r)
  | EmptyString => EmptyString
  end.

(** [sep.join(parts)]. *)
Fixpoint join (sep : string) (parts : list string) : string :=
  match parts with
  | [] => ""
  | [p] => p
  | p :: rest => p +:+ sep +:+ join sep rest
  end.

(** [q in text]. *)
Fixpoint contains (text q : string) : bool :=
  String.prefix q text
  || match text with
     | String _ r => contains r q
     | EmptyString => false
     end.

(** ** Catalog and arrival policy *)

(** A record of [PADRON], as [load_padron] builds it: six string fields,
    always present. *)
Record product : Type := {
  codigo : string;
  codigo_barra : string;
  nombre : string;
  fabricante : string;
  marca : string;
  tipo : string;
}.

Definition BRAND_ARRIVAL : gmap string string :=
  list_to_map
    [ ("SUPRA", "Llega por orden de compra");
      ("BELSIR", "Llega por orden de compra (día 2)");
      ("USA PET", "Llega por orden de compra (día 3)");
      ("DISTRICO", "Llega por orden de compra (día 3)");
      ("DASLICAR", "Llega por orden de compra (día 5)");
      ("FARMINA", "Llega por orden de compra (día 6)");
      ("SADENIR", "Llega por orden de compra (día 4)") ].

(** [(brand or "")] is [brand] for a string. *)
Definition arrival_info (brand : string) : string :=
  let key := upper (strip brand) in
  default "Encargar a Montevideo" (BRAND_ARRIVAL !! key).

(** [item.copy()] with the key ["via"] added. *)
Record search_result : Type := {
  item : product;
  via : string;
}.

Definition search_text (p : product) : string :=
  upper (join " " [codigo p; codigo_barra p; nombre p; marca p]).

(** [result = item.copy(); result["via"] = arrival_info(...)]. *)
Definition augment (p : product) : search_result :=
  {| item := p; via := arrival_info (marca p) |}.

(** The body of the loop of [filter_products], from the item at the head
    of [items] on, with [results] as accumulated so far. *)
Fixpoint scan (q : string) (limit : Z) (items : list product)
    (results : list search_result) : list search_result :=
  match items with
  | [] => results
  | p :: rest =>
      let results :=
        if contains (search_text p) q
        then results ++ [augment p]
        else results in
      if (limit <=? Z.of_nat (length results))%Z then results
      else scan q limit rest results
  end.

Section WithCatalog.

(** [PADRON = load_padron()]: read once when the module is loaded, and
    only read afterwards. *)
Variable PADRON : list product.

Definition filter_products (query : string) (limit : Z)
    : list search_result :=
  let q := upper (strip query) in
  if String.eqb q "" then [] else scan q limit PADRON [].

(** ** Order lifecycle engine *)

Definition lift {A} (r : result A) : M A := λ f, (r, f).

(** [payload.get(k, "").strip()]: only a string has [strip]. *)
Definition get_stripped (k : string) (payload : dict) : result string :=
  match get_or k (JStr "") payload with
  | JStr s => Ok (strip s)
  | _ => Raise AttributeError
  end.

(** [next((p for p in PADRON if p.get("codigo") == product_code), None)]. *)
Definition lookup_product (product_code : string) : option product :=
  List.find (λ p, String.eqb (codigo p) product_code) PADRON.

Definition new_order (uuid now sucursal : string) (cantidad : json)
    (obs : string) (p : product) : dict :=
  list_to_map
    [ ("id", JStr uuid);
      ("fecha_solicitud", JStr now);
      ("sucursal", JStr (if String.eqb sucursal "" then "N/D" else sucursal));
      ("producto",
        JObj (list_to_map
          [ ("codigo", JStr (codigo p));
            ("nombre", JStr (nombre p));
            ("marca", JStr (marca p));
            ("via", JStr (arrival_info (marca p))) ]));
      ("cantidad", cantidad);
      ("estado", JStr "pendiente");
      ("fecha_llegada", JNull);
      ("fecha_aviso", JNull);
      ("fecha_entrega", JNull);
      ("firma", JNull);
      ("observaciones", JStr obs) ].

(** [uuid] is what [uuid4()] returns and [now] what the clock reads,
    formatted. Only a dict has [get]. *)
Definition create_order (uuid now : string) (payload : json) : M dict :=
  match payload with
  | JObj payload =>
      let! product_code := lift (get_stripped "codigo" payload) in
      let! sucursal := lift (get_stripped "sucursal" payload) in
      let cantidad := get_or "cantidad" (JInt 1) payload in
      let! obs := lift (get_stripped "observaciones" payload) in
      match lookup_product product_code with
      | None => raise ProductNotFound
      | Some product =>
          let order := new_order uuid now sucursal cantidad obs product in
          let! orders := load_orders in
          do! save_orders (order :: orders) in
          ret order
      end
  | _ => raise AttributeError
  end.

(** The search loop shared by [update_order_status] and
    [save_signature]: the first order whose id equals [order_id], with
    its position, since [target] aliases that element of [orders]. *)
Fixpoint find_target (order_id : string) (orders : list dict)
    : option (nat * dict) :=
  match orders with
  | [] => None
  | o :: rest =>
      if eq_str (get "id" o) order_id then Some (0, o)
      else match find_target order_id rest with
           | Some (i, t) => Some (S i, t)
           | None => None
           end
  end.

(** [if not target]: [None], or a dict without keys. *)
Definition no_target (target : option (nat * dict)) : bool :=
  match target with
  | None => true
  | Some (_, t) => negb (truthy (JObj t))
  end.

(** The [if]/[elif] chain of [update_order_status] on [target]. *)
Definition transition (now : string) (action : json) (target : dict)
    : result dict :=
  let current := get_or "estado" (JStr "pendiente") target in
  if eq_str action "llego" then
    if negb (eq_str current "pendiente") then Raise InvalidTransition_llego
    else Ok (<["fecha_llegada" := JStr now]> (<["estado" := JStr "llegado"]> target))
  else if eq_str action "avisado" then
    if negb (eq_str current "llegado" || eq_str current "avisado")
    then Raise InvalidTransition_avisado
    else Ok (<["fecha_aviso" := JStr now]> (<["estado" := JStr "avisado"]> target))
  else if eq_str action "entregado" then
    if negb (eq_str current "avisado" || eq_str current "entregado")
    then Raise InvalidTransition_entregado
    else if negb (truthy (get "firma" target)) then Raise SignatureRequired
    else Ok (<["fecha_entrega" := JStr now]> (<["estado" := JStr "entregado"]> target))
  else Raise InvalidAction.

Definition update_order_status (now order_id : string) (action : json)
    : M dict :=
  let! orders := load_orders in
  let found := find_target order_id orders in
  if no_target found then raise OrderNotFound
  else match found with
       | None => raise OrderNotFound
       | Some (i, target) =>
           let! target := lift (transition now action target) in
           do! save_orders (<[i := target]> orders) in
           ret target
       end.

Definition save_signature (order_id : string) (data_url : json) : M dict :=
  let! orders := load_orders in
  let found := find_target order_id orders in
  if no_target found then raise OrderNotFound
  else match found with
       | None => raise OrderNotFound
       | Some (i, target) =>
           let target := <["firma" := data_url]> target in
           do! save_orders (<[i := target]> orders) in
           ret target
       end.

(** ** Sequences of engine operations *)

Inductive op : Type :=
  | UpdateStatus (now order_id : string) (action : json)
  | SaveSignature (order_id : string) (data_url : json).

Definition markArrived (now order_id : string) : op :=
  UpdateStatus now order_id (JStr "llego").
Definition markNotified (now order_id : string) : op :=
  UpdateStatus now order_id (JStr "avisado").
Definition markDelivered (now order_id : string) : op :=
  UpdateStatus now order_id (JStr "entregado").

Definition exec (o : op) : M dict :=
  match o with
  | UpdateStatus now order_id action => update_order_status now order_id action
  | SaveSignature order_id data_url => save_signature order_id data_url
  end.

(** The file after an operation; a raising one is answered with an error
    and the next request is served from the file as it then stands. *)
Definition after {A} (m : M A) (f : orders_file) : orders_file := snd (m f).

Definition run (ops : list op) (f : orders_file) : orders_file :=
  foldl (λ f o, after (exec o) f) f ops.

(** Requests as the engine is driven: creations and operations. *)
Inductive request : Type :=
  | CreateOrder (uuid now : string) (payload : json)
  | Engine (o : op).

Definition serve (r : request) : M dict :=
  match r with
  | CreateOrder uuid now payload => create_order uuid now payload
  | Engine o => exec o
  end.

Definition serve_all (rs : list request) (f : orders_file) : orders_file :=
  foldl (λ f r, after (serve r) f) f rs.

End WithCatalog.

(** The collection as the engine sees it: what [load_orders] returns,
    and no order where it raises. *)
Definition stored (f : orders_file) : list dict :=
  match fst (load_orders f) with
  | Ok orders => orders
  | Raise _ => []
  end.

Definition estado (o : dict) : json := get_or "estado" (JStr "pendiente") o.

(** ** Notions the properties are stated with *)

(** The defaults of [load_orders], by key. *)
Definition defaults : list (string * json) :=
  [ ("estado", JStr "pendiente"); ("fecha_llegada", JNull);
    ("fecha_aviso", JNull); ("fecha_entrega", JNull); ("firma", JNull) ].

(** An order that carries the five lifecycle keys, whatever their
    values. *)
Definition has_fields (o : dict) : Prop :=
  is_Some (o !! "estado") ∧ is_Some (o !! "fecha_llegada")
  ∧ is_Some (o !! "fecha_aviso") ∧ is_Some (o !! "fecha_entrega")
  ∧ is_Some (o !! "firma").


(** What an operation that returns has done to its target [t]. *)
Definition rewrites (o : op) (t t' : dict) : Prop :=
  match o with
  | UpdateStatus now order_id action =>
      t !! "id" = Some (JStr order_id) ∧ transition now action t = Ok t'
  | SaveSignature order_id data_url =>
      t !! "id" = Some (JStr order_id) ∧ t' = <["firma" := data_url]> t
  end.

Ltac dict_lookup :=
  unfold estado, get, get_or in *;
  repeat first
    [ rewrite lookup_insert_eq
    | rewrite lookup_insert_ne by discriminate ];
  simpl.

Ltac split_transition H :=
  unfold transition in H;
  repeat (match type of H with
          | (if ?b then _ else _) = _ => destruct b eqn:?
          end; try discriminate);
  inversion H; subst; clear H.

(** [saveAll(loadAll())]: load, then save what was loaded. *)
Definition resave : M unit :=
  let! orders := load_orders in
  save_orders orders.

(** The file holds a collection: a JSON array of objects. *)
Definition holds_orders (f : orders_file) : Prop :=
  ∃ os : list dict, f = Json (JArr (JObj <$> os)).

(** The file holds a collection of orders of the current schema: each
    carries the lifecycle keys, null or not. *)
Definition valid_store (f : orders_file) : Prop :=
  ∃ orders : list dict,
    f = Json (JArr (JObj <$> orders)) ∧ Forall has_fields orders.




(** The id an operation asks for, and the keys it assigns. *)
Definition order_id_of (o : op) : string :=
  match o with
  | UpdateStatus _ order_id _ | SaveSignature order_id _ => order_id
  end.


(** The clock reading a request takes, if it takes one. *)
Definition clock_of (r : request) : option string :=
  match r with
  | CreateOrder _ now _ => Some now
  | Engine (UpdateStatus now _ _) => Some now
  | Engine (SaveSignature _ _) => None
  end.

(** The readings of [rs] do not decrease, from [c] on.  Timestamps are
    text in the format [%Y-%m-%d %H:%M:%S], ordered as text. *)
Fixpoint clock_ok (c : string) (rs : list request) : Prop :=
  match rs with
  | [] => True
  | r :: rest =>
      match clock_of r with
      | Some now => (c ≤ now)%string ∧ clock_ok now rest
      | None => clock_ok c rest
      end
  end.

Definition clock_after (c : string) (rs : list request) : string :=
  foldl (λ c r, default c (clock_of r)) c rs.

(** requestedAt, arrivedAt, notifiedAt, deliveredAt. *)
Definition timestamps (o : dict) : json * json * json * json :=
  (get "fecha_solicitud" o, get "fecha_llegada" o, get "fecha_aviso" o,
   get "fecha_entrega" o).

(** The timestamps of an order are set up to its status and no further,
    in order, none later than the clock reading [c]. *)
Definition lifecycle (c : string) (o : dict) : Prop :=
  (estado o = JStr "pendiente"
   ∧ ∃ r, timestamps o = (JStr r, JNull, JNull, JNull) ∧ (r ≤ c)%string)
  ∨ (estado o = JStr "llegado"
     ∧ ∃ r a, timestamps o = (JStr r, JStr a, JNull, JNull)
         ∧ (r ≤ a ≤ c)%string)
  ∨ (estado o = JStr "avisado"
     ∧ ∃ r a n, timestamps o = (JStr r, JStr a, JStr n, JNull)
         ∧ (r ≤ a ≤ n ≤ c)%string)
  ∨ (estado o = JStr "entregado"
     ∧ ∃ r a n d, timestamps o = (JStr r, JStr a, JStr n, JStr d)
         ∧ (r ≤ a ≤ n)%string ∧ (n ≤ d ≤ c)%string).

(** A stored order used to exercise the statements: pending, nothing
    stamped, no signature. *)
Definition sample_order : dict :=
  list_to_map
    [ ("id", JStr "7f3a"); ("fecha_solicitud", JStr "2024-03-01 09:00:00");
      ("estado", JStr "pendiente"); ("fecha_llegada", JNull);
      ("fecha_aviso", JNull); ("fecha_entrega", JNull); ("firma", JNull) ].

Definition sample_file : orders_file := Json (JArr [JObj sample_order]).

(** The same order once delivered, signed. *)
Definition delivered_order : dict :=
  list_to_map
    [ ("id", JStr "7f3a"); ("fecha_solicitud", JStr "2024-03-01 09:00:00");
      ("estado", JStr "entregado");
      ("fecha_llegada", JStr "2024-03-02 10:00:00");
      ("fecha_aviso", JStr "2024-03-03 10:00:00");
      ("fecha_entrega", JStr "2024-03-04 10:00:00");
      ("firma", JStr "data:image/png;base64,AAAA") ].

Definition delivered_file : orders_file := Json (JArr [JObj delivered_order]).

(** A record written before the lifecycle fields existed. *)
Definition legacy_order : dict :=
  list_to_map
    [ ("id", JStr "0c1d"); ("fecha_solicitud", JStr "2023-11-20 16:30:00") ].

Definition sample_catalog : list product :=
  [ {| codigo := "A1"; codigo_barra := "7790001"; nombre := "Kibble Mix";
       fabricante := "Farmina Pet Foods"; marca := "FARMINA";
       tipo := "Alimento" |};
    {| codigo := "B2"; codigo_barra := "7790002"; nombre := "Snack mix";
       fabricante := "Otro"; marca := "ACME"; tipo := "Alimento" |} ].

Definition sample_payload (code : string) : dict :=
  list_to_map
    [ ("codigo", JStr code); ("sucursal", JStr "PDE"); ("cantidad", JInt 2);
      ("observaciones", JStr "") ].

(** ** Catalog loading *)








(** ** HTTP handlers *)

(** What a view function hands back to Flask: a JSON body with a status,
    the body [{"error": str(e)}] with status 400, or an exception it
    does not catch. *)
Inductive response : Type :=
  | Reply (status : nat) (body : json)
  | ReplyError (e : exn)
  | Propagates (e : exn).

(** [except ValueError]: [UnicodeDecodeError] is a [ValueError] too. *)
Definition is_ValueError (e : exn) : bool :=
  match e with
  | ValueError _ | UnicodeDecodeError => true
  | TypeError | AttributeError => false
  end.

(** The [try]/[except ValueError] around an engine call, and
    [jsonify(order)] after it. *)
Definition respond (r : result dict * orders_file) : response * orders_file :=
  match r with
  | (Ok order, f) => (Reply 200 (JObj order), f)
  | (Raise e, f) =>
      (if is_ValueError e then ReplyError e else Propagates e, f)
  end.

(** A record of [PADRON] as the dict it is, and a search result as
    [jsonify] sees it. *)
Definition product_dict (p : product) : dict :=
  list_to_map
    [ ("codigo", JStr (codigo p)); ("codigo_barra", JStr (codigo_barra p));
      ("nombre", JStr (nombre p)); ("fabricante", JStr (fabricante p));
      ("marca", JStr (marca p)); ("tipo", JStr (tipo p)) ].

Definition result_dict (r : search_result) : dict :=
  <["via" := JStr (via r)]> (product_dict (item r)).

(** [q] is the query parameter of the URL, if it has one; [data] is the
    request body as [request.get_json(force=True)] decodes it. *)
Definition api_search (PADRON : list product) (q : option string) : response :=
  Reply 200 (JArr (JObj ∘ result_dict <$> filter_products PADRON (default "" q) 25)).

Definition api_orders (f : orders_file) : response * orders_file :=
  match load_orders f with
  | (Ok orders, f') => (Reply 200 (JArr (JObj <$> orders)), f')
  | (Raise e, f') => (Propagates e, f')
  end.

Definition api_create_order (PADRON : list product) (uuid now : string)
    (data : json) (f : orders_file) : response * orders_file :=
  respond (create_order PADRON uuid now data f).

Definition api_update_order (now order_id : string) (data : json)
    (f : orders_file) : response * orders_file :=
  match data with
  | JObj d => respond (update_order_status now order_id (get "accion" d) f)
  | _ => (Propagates AttributeError, f)
  end.

Definition api_save_signature (order_id : string) (data : json)
    (f : orders_file) : response * orders_file :=
  match data with
  | JObj d =>
      let firma := get "firma" d in
      if negb (truthy firma)
      then (Reply 400 (JObj {[ "error" := JStr "Firma requerida" ]}), f)
      else respond (save_signature order_id firma f)
  | _ => (Propagates AttributeError, f)
  end.

Inductive http_request : Type :=
  | GET_search (q : option string)
  | GET_orders
  | POST_orders (uuid now : string) (data : json)
  | POST_estado (now order_id : string) (data : json)
  | POST_firma (order_id : string) (data : json).

Definition handle (PADRON : list product) (r : http_request)
    (f : orders_file) : response * orders_file :=
  match r with
  | GET_search q => (api_search PADRON q, f)
  | GET_orders => api_orders f
  | POST_orders uuid now data => api_create_order PADRON uuid now data f
  | POST_estado now order_id data => api_update_order now order_id data f
  | POST_firma order_id data => api_save_signature order_id data f
  end.

(** The file after a sequence of requests, each served from the file the
    one before left. *)
Definition handle_all (PADRON : list product) (rs : list http_request)
    (f : orders_file) : orders_file :=
  foldl (λ f r, snd (handle PADRON r f)) f rs.

(** ** Further notions *)

(** A delivered order carries a signature. *)
Definition signed_if_delivered (o : dict) : Prop :=
  estado o = JStr "entregado" → truthy (get "firma" o) = true.



(** * Properties *)

(** ** Dictionaries and normalisation *)

Lemma lookup_setdefault (k k' : string) (v : json) (d : dict) :
  setdefault k v d !! k' =
    if decide (k = k') then Some (default v (d !! k)) else d !! k'.
Proof.
  unfold setdefault. destruct (d !! k) as [x|] eqn:E; case_decide; subst; simpl.
  - done.
  - done.
  - apply lookup_insert_eq.
  - by apply lookup_insert_ne.
Qed.

Lemma setdefault_id (k : string) (v : json) (d : dict) :
  is_Some (d !! k) → setdefault k v d = d.
Proof. intros [x E]. unfold setdefault. by rewrite E. Qed.

Lemma lookup_normalize (o : dict) (k : string) :
  normalize o !! k =
    match o !! k with
    | Some v => Some v
    | None => (list_to_map defaults : dict) !! k
    end.
Proof.
  unfold normalize. rewrite !lookup_setdefault.
  repeat case_decide; subst; simpl;
    repeat (rewrite lookup_setdefault; case_decide; try done);
    destruct (o !! _) eqn:E; try done.
  by rewrite !lookup_insert_ne, lookup_empty.
Qed.

Lemma normalize_has_fields (o : dict) : has_fields (normalize o).
Proof.
  unfold has_fields. rewrite !lookup_normalize.
  repeat split; destruct (o !! _); by eauto.
Qed.

Lemma normalize_id (o : dict) : has_fields o → normalize o = o.
Proof.
  intros (H1 & H2 & H3 & H4 & H5). unfold normalize.
  rewrite (setdefault_id "estado") by done.
  rewrite (setdefault_id "fecha_llegada") by done.
  rewrite (setdefault_id "fecha_aviso") by done.
  rewrite (setdefault_id "fecha_entrega") by done.
  by apply setdefault_id.
Qed.

Lemma has_fields_insert (k : string) (v : json) (o : dict) :
  has_fields o → has_fields (<[k := v]> o).
Proof.
  unfold has_fields. intros (H1 & H2 & H3 & H4 & H5).
  repeat split; rewrite lookup_insert; case_decide; eauto.
Qed.

Lemma normalize_all_objects (os : list dict) :
  normalize_all (JObj <$> os) = Ok (normalize <$> os).
Proof. induction os as [|o os IH]; csimpl; [done|]. by rewrite IH. Qed.

(** A load that returns comes from a file without one, from one that
    does not decode, or from a document whose elements are all dicts. *)
Lemma normalize_all_Ok (raw : list json) (orders : list dict) :
  normalize_all raw = Ok orders →
  ∃ os, raw = JObj <$> os ∧ orders = normalize <$> os.
Proof.
  revert orders. induction raw as [|v raw IH]; intros orders H; simpl in H.
  - exists []. by inversion H.
  - destruct v; try discriminate.
    destruct (normalize_all raw) as [os'|] eqn:E; [|discriminate].
    destruct (IH os' eq_refl) as (os & -> & ->).
    inversion H; subst. by exists (m :: os).
Qed.

Lemma load_orders_has_fields (f : orders_file) (orders : list dict) :
  fst (load_orders f) = Ok orders → Forall has_fields orders.
Proof.
  destruct f as [| | |raw]; simpl; try (intros [= <-]; constructor); try done.
  destruct raw; simpl; try done.
  - destruct (String.eqb _ _); [intros [= <-]; constructor | done].
  - intros H. apply normalize_all_Ok in H as (os & _ & ->).
    apply Forall_fmap, Forall_true. intros o. apply normalize_has_fields.
  - destruct (size m =? 0)%nat; [intros [= <-]; constructor | done].
Qed.

Lemma load_orders_file (f : orders_file) : snd (load_orders f) = f.
Proof. by destruct f. Qed.

Lemma stored_has_fields (f : orders_file) : Forall has_fields (stored f).
Proof.
  unfold stored. destruct (fst (load_orders f)) eqn:E; [|constructor].
  by eapply load_orders_has_fields.
Qed.

Lemma normalize_fmap_id (orders : list dict) :
  Forall has_fields orders → normalize <$> orders = orders.
Proof.
  induction 1 as [|o os Ho _ IH]; csimpl; [done|].
  by rewrite IH, normalize_id.
Qed.

(** What a save leaves in the file is read back as saved, once the
    orders carry the lifecycle keys. *)
Lemma stored_saved (orders : list dict) :
  Forall has_fields orders → stored (Json (JArr (JObj <$> orders))) = orders.
Proof.
  intros H. unfold stored. simpl. rewrite normalize_all_objects.
  by apply normalize_fmap_id.
Qed.

(** ** Locating the target *)

Lemma eq_str_true (v : json) (s : string) : eq_str v s = true ↔ v = JStr s.
Proof.
  destruct v; simpl; try (split; [discriminate | congruence]).
  rewrite String.eqb_eq. split; congruence.
Qed.

Lemma get_id_eq (o : dict) (order_id : string) :
  eq_str (get "id" o) order_id = true ↔ o !! "id" = Some (JStr order_id).
Proof.
  rewrite eq_str_true. unfold get.
  destruct (o !! "id") as [v|]; simpl; split; congruence.
Qed.

Lemma find_target_Some (order_id : string) (orders : list dict) (i : nat)
    (t : dict) :
  find_target order_id orders = Some (i, t) →
  orders !! i = Some t ∧ t !! "id" = Some (JStr order_id)
  ∧ ∀ j o, (j < i)%nat → orders !! j = Some o →
      o !! "id" ≠ Some (JStr order_id).
Proof.
  revert i. induction orders as [|o rest IH]; intros i H; simpl in H; [done|].
  destruct (eq_str (get "id" o) order_id) eqn:E.
  - inversion H; subst. apply get_id_eq in E. repeat split; [done|]. lia.
  - destruct (find_target order_id rest) as [[i' t']|]; [|done].
    inversion H; subst. destruct (IH i' eq_refl) as (H1 & H2 & H3).
    repeat split; [done..|]. intros [|j] o' Hj Ho'; simpl in Ho'.
    + inversion Ho'; subst. rewrite <- get_id_eq. by rewrite E.
    + apply (H3 j); [lia | done].
Qed.

Lemma find_target_None (order_id : string) (orders : list dict) :
  find_target order_id orders = None →
  ∀ o, o ∈ orders → o !! "id" ≠ Some (JStr order_id).
Proof.
  induction orders as [|o rest IH]; intros H o' Ho'; simpl in H.
  - by apply elem_of_nil in Ho'.
  - destruct (eq_str (get "id" o) order_id) eqn:E; [done|].
    destruct (find_target order_id rest) as [[i' t']|]; [done|].
    apply elem_of_cons in Ho' as [->|Ho'].
    + rewrite <- get_id_eq. by rewrite E.
    + by apply IH.
Qed.

(** A located target has the key ["id"], so it is never an empty dict:
    [if not target] is the test for [None]. *)
Lemma found_target (order_id : string) (orders : list dict) (i : nat)
    (t : dict) :
  find_target order_id orders = Some (i, t) → no_target (Some (i, t)) = false.
Proof.
  intros (_ & Hid & _)%find_target_Some. simpl.
  destruct (size t =? 0)%nat eqn:E; [|done].
  apply Nat.eqb_eq, map_size_empty_iff in E. subst.
  by rewrite lookup_empty in Hid.
Qed.

(** ** The operations, by what they return and write *)

Lemma load_orders_stored (f : orders_file) :
  load_orders f = (Ok (stored f), f)
  ∨ ∃ e, load_orders f = (Raise e, f) ∧ stored f = [].
Proof.
  unfold stored. pose proof (load_orders_file f) as Hf.
  destruct (load_orders f) as [[orders|e] f'] eqn:E; simpl in *; subst.
  - by left.
  - right. by exists e.
Qed.

Lemma update_order_status_found (now order_id : string) (action : json)
    (f : orders_file) (i : nat) (t : dict) :
  find_target order_id (stored f) = Some (i, t) →
  update_order_status now order_id action f =
    match transition now action t with
    | Ok t' => (Ok t', Json (JArr (JObj <$> <[i := t']> (stored f))))
    | Raise e => (Raise e, f)
    end.
Proof.
  intros H. unfold update_order_status, bind.
  destruct (load_orders_stored f) as [-> | (e & _ & E)].
  - cbv beta iota zeta. rewrite H, (found_target _ _ _ _ H). unfold lift.
    by destruct (transition now action t).
  - by rewrite E in H.
Qed.

Lemma update_order_status_not_found (now order_id : string) (action : json)
    (f : orders_file) :
  find_target order_id (stored f) = None →
  ∃ e, update_order_status now order_id action f = (Raise e, f).
Proof.
  intros H. unfold update_order_status, bind.
  destruct (load_orders_stored f) as [-> | (e & -> & E)].
  - cbv beta iota zeta. rewrite H. simpl. by eexists.
  - by eexists.
Qed.

Lemma save_signature_found (order_id : string) (data_url : json)
    (f : orders_file) (i : nat) (t : dict) :
  find_target order_id (stored f) = Some (i, t) →
  save_signature order_id data_url f =
    (Ok (<["firma" := data_url]> t),
     Json (JArr (JObj <$> <[i := <["firma" := data_url]> t]> (stored f)))).
Proof.
  intros H. unfold save_signature, bind.
  destruct (load_orders_stored f) as [-> | (e & _ & E)].
  - cbv beta iota zeta. by rewrite H, (found_target _ _ _ _ H).
  - by rewrite E in H.
Qed.

Lemma save_signature_not_found (order_id : string) (data_url : json)
    (f : orders_file) :
  find_target order_id (stored f) = None →
  ∃ e, save_signature order_id data_url f = (Raise e, f).
Proof.
  intros H. unfold save_signature, bind.
  destruct (load_orders_stored f) as [-> | (e & -> & E)].
  - cbv beta iota zeta. rewrite H. simpl. by eexists.
  - by eexists.
Qed.

Lemma transition_has_fields (now : string) (action : json) (t t' : dict) :
  transition now action t = Ok t' → has_fields t → has_fields t'.
Proof.
  unfold transition. intros H Ht.
  repeat (match type of H with
          | (if ?b then _ else _) = _ => destruct b
          end; try discriminate);
    inversion H; subst; by do 2 apply has_fields_insert.
Qed.

Lemma stored_insert (f : orders_file) (i : nat) (t' : dict) :
  has_fields t' →
  stored (Json (JArr (JObj <$> <[i := t']> (stored f)))) = <[i := t']> (stored f).
Proof.
  intros H. apply stored_saved.
  destruct (decide (i < length (stored f))%nat).
  - apply Forall_insert; [apply stored_has_fields | done].
  - rewrite list_insert_ge by lia. apply stored_has_fields.
Qed.

(** ** One operation on the stored collection *)

(** Either the file is left as it was (the operation raised), or one
    stored order, the first with the requested id, was rewritten in
    place. *)
Lemma exec_stored (o : op) (f : orders_file) :
  (∃ e, exec o f = (Raise e, f))
  ∨ ∃ i t t', find_target (order_id_of o) (stored f) = Some (i, t)
      ∧ rewrites o t t'
      ∧ exec o f = (Ok t', Json (JArr (JObj <$> <[i := t']> (stored f))))
      ∧ stored (after (exec o) f) = <[i := t']> (stored f).
Proof.
  destruct o as [now order_id action | order_id data_url]; simpl.
  - destruct (find_target order_id (stored f)) as [[i t]|] eqn:E.
    + rewrite (update_order_status_found _ _ _ _ _ _ E).
      destruct (transition now action t) as [t'|e] eqn:Et; [|by left; eexists].
      right. exists i, t, t'.
      pose proof (find_target_Some _ _ _ _ E) as (Hi & Hid & _).
      repeat split; [done..|]. unfold after.
      rewrite (update_order_status_found _ _ _ _ _ _ E), Et. simpl.
      apply stored_insert. eapply transition_has_fields; [done|].
      by eapply Forall_lookup_1; [apply stored_has_fields|].
    + left. by apply update_order_status_not_found.
  - destruct (find_target order_id (stored f)) as [[i t]|] eqn:E.
    + right. exists i, t, (<["firma" := data_url]> t).
      pose proof (find_target_Some _ _ _ _ E) as (Hi & Hid & _).
      rewrite (save_signature_found _ _ _ _ _ E).
      repeat split; [done..|]. unfold after.
      rewrite (save_signature_found _ _ _ _ _ E). simpl.
      apply stored_insert, has_fields_insert.
      by eapply Forall_lookup_1; [apply stored_has_fields|].
    + left. by apply save_signature_not_found.
Qed.





(** ** Status progression *)



(** ** Transitions *)

Lemma eq_str_false (v : json) (s : string) : eq_str v s = false ↔ v ≠ JStr s.
Proof.
  rewrite <- eq_str_true. destruct (eq_str v s); split; congruence.
Qed.

(** C7. On a stored order, markArrived succeeds exactly when the status
    is pending, and then sets status arrived and stamps arrivedAt, and
    fails with InvalidTransition otherwise; markNotified succeeds
    exactly when the status is arrived or notified, and then sets status
    notified and stamps notifiedAt anew, and fails with
    InvalidTransition otherwise (so for pending and delivered); an
    action name outside the known three fails with InvalidAction.  A
    failing call leaves the file as it was. *)
Theorem update_order_status_transitions (now order_id : string)
    (f : orders_file) (i : nat) (t : dict) :
  find_target order_id (stored f) = Some (i, t) →
  (estado t = JStr "pendiente" →
     let t' := <["fecha_llegada" := JStr now]> (<["estado" := JStr "llegado"]> t) in
     update_order_status now order_id (JStr "llego") f =
       (Ok t', Json (JArr (JObj <$> <[i := t']> (stored f))))
     ∧ estado t' = JStr "llegado" ∧ get "fecha_llegada" t' = JStr now)
  ∧ (estado t ≠ JStr "pendiente" →
     update_order_status now order_id (JStr "llego") f =
       (Raise InvalidTransition_llego, f))
  ∧ (estado t = JStr "llegado" ∨ estado t = JStr "avisado" →
     let t' := <["fecha_aviso" := JStr now]> (<["estado" := JStr "avisado"]> t) in
     update_order_status now order_id (JStr "avisado") f =
       (Ok t', Json (JArr (JObj <$> <[i := t']> (stored f))))
     ∧ estado t' = JStr "avisado" ∧ get "fecha_aviso" t' = JStr now)
  ∧ (¬ (estado t = JStr "llegado" ∨ estado t = JStr "avisado") →
     update_order_status now order_id (JStr "avisado") f =
       (Raise InvalidTransition_avisado, f))
  ∧ (∀ action : json,
       action ≠ JStr "llego" → action ≠ JStr "avisado" →
       action ≠ JStr "entregado" →
       update_order_status now order_id action f = (Raise InvalidAction, f)).
Proof.
  intros Hf. repeat split;
    try (intros; rewrite (update_order_status_found _ _ _ _ _ _ Hf));
    try (intros; by dict_lookup).
  - unfold transition. fold (estado t). by rewrite H.
  - unfold transition. fold (estado t). simpl.
    apply eq_str_false in H. by rewrite H.
  - unfold transition. fold (estado t).
    by destruct H as [-> | ->].
  - unfold transition. fold (estado t). simpl.
    destruct (eq_str (estado t) "llegado") eqn:E1;
      [apply eq_str_true in E1; tauto|].
    destruct (eq_str (estado t) "avisado") eqn:E2;
      [apply eq_str_true in E2; tauto|]. done.
  - unfold transition.
    apply eq_str_false in H, H0, H1. by rewrite H, H0, H1.
Qed.

Lemma update_order_status_transitions_witness :
  update_order_status "2024-03-02 10:00:00" "7f3a" (JStr "llego") sample_file =
    (Ok (<["fecha_llegada" := JStr "2024-03-02 10:00:00"]>
           (<["estado" := JStr "llegado"]> sample_order)),
     Json (JArr (JObj <$>
       <[0%nat := <["fecha_llegada" := JStr "2024-03-02 10:00:00"]>
                    (<["estado" := JStr "llegado"]> sample_order)]>
         (stored sample_file)))).
Proof.
  assert (find_target "7f3a" (stored sample_file) = Some (0%nat, sample_order))
    as Hf by (vm_compute; reflexivity).
  destruct (update_order_status_transitions "2024-03-02 10:00:00" _ _ _ _ Hf)
    as (H & _).
  apply H. vm_compute. reflexivity.
Defined.

(** C2. For every stored order whose signature is null, markDelivered
    fails whatever the status: with SignatureRequired when the status
    test passes (notified, or delivered already), with InvalidTransition
    otherwise.  Nothing is written, so the status is not set to
    delivered and deliveredAt is not stamped. *)
Theorem markDelivered_requires_signature (now order_id : string)
    (f : orders_file) (i : nat) (t : dict) :
  find_target order_id (stored f) = Some (i, t) →
  get "firma" t = JNull →
  ∃ e, exec (markDelivered now order_id) f = (Raise e, f)
    ∧ (estado t = JStr "avisado" ∨ estado t = JStr "entregado" →
       e = SignatureRequired)
    ∧ (¬ (estado t = JStr "avisado" ∨ estado t = JStr "entregado") →
       e = InvalidTransition_entregado).
Proof.
  intros Hf Hsig. simpl.
  rewrite (update_order_status_found _ _ _ _ _ _ Hf).
  unfold transition. fold (estado t). simpl. rewrite Hsig. simpl.
  destruct (eq_str (estado t) "avisado") eqn:E1; simpl.
  { eexists. split; [done|]. split; [done|].
    apply eq_str_true in E1. tauto. }
  destruct (eq_str (estado t) "entregado") eqn:E2; simpl.
  { eexists. split; [done|]. split; [done|].
    apply eq_str_true in E2. tauto. }
  eexists. split; [done|]. split; [|done].
  apply eq_str_false in E1, E2. tauto.
Qed.

Lemma markDelivered_requires_signature_witness :
  ∃ e, exec (markDelivered "2024-03-04 10:00:00" "7f3a")
         (run [markArrived "2024-03-02 10:00:00" "7f3a";
               markNotified "2024-03-03 10:00:00" "7f3a"] sample_file) =
       (Raise e, run [markArrived "2024-03-02 10:00:00" "7f3a";
                      markNotified "2024-03-03 10:00:00" "7f3a"] sample_file)
    ∧ e = SignatureRequired.
Proof.
  destruct (markDelivered_requires_signature "2024-03-04 10:00:00" "7f3a"
              (run [markArrived "2024-03-02 10:00:00" "7f3a";
                    markNotified "2024-03-03 10:00:00" "7f3a"] sample_file)
              0%nat
              (<["fecha_aviso" := JStr "2024-03-03 10:00:00"]>
                 (<["estado" := JStr "avisado"]>
                   (<["fecha_llegada" := JStr "2024-03-02 10:00:00"]>
                     (<["estado" := JStr "llegado"]> sample_order)))))
    as (e & He & Hsig & _).
  - vm_compute. reflexivity.
  - vm_compute. reflexivity.
  - exists e. split; [exact He|]. apply Hsig. left. vm_compute. reflexivity.
Defined.

(** ** Signature *)




(** ** Creation *)


(** [create_order] raises without having written. *)
Lemma create_order_raise (PADRON : list product) (uuid now : string)
    (payload : json) (f : orders_file) (e : exn) :
  fst (create_order PADRON uuid now payload f) = Raise e →
  create_order PADRON uuid now payload f = (Raise e, f).
Proof.
  unfold create_order, bind, lift, raise, ret, save_orders.
  destruct payload; simpl; try (by intros [= ->]).
  destruct (get_stripped "codigo" m); simpl; [|by intros [= ->]].
  destruct (get_stripped "sucursal" m); simpl; [|by intros [= ->]].
  destruct (get_stripped "observaciones" m); simpl; [|by intros [= ->]].
  destruct (lookup_product PADRON a); simpl; [|by intros [= ->]].
  destruct (load_orders_stored f) as [-> | (e' & -> & _)]; simpl.
  - done.
  - by intros [= ->].
Qed.



(** ** Store *)

(** C5. For every valid stored collection of orders, null timestamps
    and null signature included, loading and saving what was loaded
    leaves in the file the document it held. *)
Theorem load_save_roundtrip (f : orders_file) :
  valid_store f → resave f = (Ok tt, f).
Proof.
  intros (orders & -> & H). unfold resave, bind, save_orders. simpl.
  rewrite normalize_all_objects. by rewrite normalize_fmap_id.
Qed.

Lemma load_save_roundtrip_witness : resave sample_file = (Ok tt, sample_file).
Proof.
  apply load_save_roundtrip. exists [sample_order]. split; [reflexivity|].
  repeat constructor; eexists; vm_compute; reflexivity.
Defined.

(** Whatever the file, a load that returns is not changed by saving it
    back, as far as loading shows: a legacy record gets its defaults
    written out, and reads the same. *)
Lemma resave_stored (f : orders_file) : stored (after resave f) = stored f.
Proof.
  unfold after, resave, bind.
  destruct (load_orders_stored f) as [-> | (e & -> & E)]; simpl; [|done].
  apply stored_saved, stored_has_fields.
Qed.

(** A record written before the lifecycle fields existed loads as a
    pending order with nothing stamped and no signature. *)
Example legacy_order_loads :
  (λ o, (estado o, timestamps o, get "firma" o)) <$>
    stored (Json (JArr [JObj legacy_order]))
  = [(JStr "pendiente",
      (JStr "2023-11-20 16:30:00", JNull, JNull, JNull), JNull)].
Proof. vm_compute. reflexivity. Qed.

(** C6, as stated, fails: content that decodes as JSON and is not an
    array of objects makes [load_orders] raise, since only
    [JSONDecodeError] is caught. *)
Lemma load_orders_raises_on_corrupt :
  ¬ (∀ f : orders_file,
       f ≠ Missing → ¬ holds_orders f → fst (load_orders f) = Ok []).
Proof.
  intros H. specialize (H (Json (JArr [JNull]))). simpl in H.
  assert (Raise AttributeError = Ok ([] : list dict)) as [=].
  apply H; [done|]. intros [[|o os] [=]].
Qed.

(** C6, amended. [load_orders] returns the empty collection when the
    file is missing and when its content is not JSON, and leaves the
    file alone; on a file that holds an array of objects it returns
    every record with each of status, arrivedAt, notifiedAt, deliveredAt
    and signature that is missing backfilled (status pending, the rest
    null) and every key that is present as it is. *)
Theorem load_orders_backfills :
  load_orders Missing = (Ok [], Missing)
  ∧ load_orders NotJson = (Ok [], NotJson)
  ∧ (∀ os : list dict,
       load_orders (Json (JArr (JObj <$> os))) =
         (Ok (normalize <$> os), Json (JArr (JObj <$> os))))
  ∧ (∀ (o : dict) (k : string),
       normalize o !! k =
         match o !! k with
         | Some v => Some v
         | None =>
             (list_to_map
                [ ("estado", JStr "pendiente"); ("fecha_llegada", JNull);
                  ("fecha_aviso", JNull); ("fecha_entrega", JNull);
                  ("firma", JNull) ] : dict) !! k
         end).
Proof.
  repeat split.
  - intros os. simpl. by rewrite normalize_all_objects.
  - intros o k. apply lookup_normalize.
Qed.

(** ** Catalog search *)












(** ** Frame *)


Lemma has_fields_new_order (uuid now sucursal : string) (cantidad : json)
    (obs : string) (p : product) :
  has_fields (new_order uuid now sucursal cantidad obs p).
Proof. unfold has_fields, new_order. repeat split; by eexists. Qed.

Lemma create_order_Ok (PADRON : list product) (uuid now : string)
    (payload : json) (f f' : orders_file) (order : dict) :
  create_order PADRON uuid now payload f = (Ok order, f') →
  f' = Json (JArr (JObj <$> order :: stored f))
  ∧ stored f' = order :: stored f.
Proof.
  unfold create_order, bind, lift, raise, ret, save_orders.
  destruct payload; try done.
  destruct (get_stripped "codigo" m); [|done].
  destruct (get_stripped "sucursal" m); [|done].
  destruct (get_stripped "observaciones" m); [|done].
  destruct (lookup_product PADRON a); [|done].
  destruct (load_orders_stored f) as [-> | (e' & -> & _)]; [|done].
  intros [= <- <-]. split; [done|].
  apply (stored_saved (_ :: _)). constructor.
  - apply has_fields_new_order.
  - apply stored_has_fields.
Qed.



(** ** Timestamps *)

Lemma lifecycle_mono (c c' : string) (o : dict) :
  (c ≤ c')%string → lifecycle c o → lifecycle c' o.
Proof.
  intros Hc [(He & r & Ht & H) | [(He & r & a & Ht & H1 & H2)
    | [(He & r & a & n & Ht & H1 & H2 & H3)
      | (He & r & a & n & d & Ht & [H1 H2] & [H3 H4])]]].
  - left. split; [done|]. exists r. split; [done|]. by etrans.
  - right; left. split; [done|]. exists r, a. repeat split; [done..|]. by etrans.
  - right; right; left. split; [done|]. exists r, a, n.
    repeat split; [done..|]. by etrans.
  - right; right; right. split; [done|]. exists r, a, n, d.
    repeat split; [done..|]. by etrans.
Qed.

Lemma lifecycle_new_order (uuid now sucursal : string) (cantidad : json)
    (obs : string) (p : product) :
  lifecycle now (new_order uuid now sucursal cantidad obs p).
Proof. left. split; [done|]. by exists now. Qed.

Lemma lifecycle_signature (c : string) (data_url : json) (o : dict) :
  lifecycle c o → lifecycle c (<["firma" := data_url]> o).
Proof.
  unfold lifecycle, timestamps, estado, get_or, get.
  by rewrite !lookup_insert_ne.
Qed.

(** A transition at a reading not before the last one keeps the
    timestamps in order. *)
Lemma lifecycle_transition (c now : string) (action : json) (t t' : dict) :
  transition now action t = Ok t' → (c ≤ now)%string →
  lifecycle c t → lifecycle now t'.
Proof.
  intros H Hc Hl. split_transition H;
    repeat match goal with
           | H : negb _ = false |- _ => apply negb_false_iff in H
           | H : (_ || _) = true |- _ => apply orb_true_iff in H as [H|H]
           | H : eq_str _ _ = true |- _ => apply eq_str_true in H
           end;
    fold (estado t) in *;
    destruct Hl as [(He & r & Ht & Hr) | [(He & r & a & Ht & H1 & H2)
      | [(He & r & a & n & Ht & H1 & H2 & H3)
        | (He & r & a & n & d & Ht & [H1 H2] & [H3 H4])]]];
    try congruence;
    unfold timestamps, get in Ht; injection Ht as Hr0 Ha0 Hn0 Hd0.
  - right; left. split; [by dict_lookup|]. exists r, now.
    unfold timestamps. dict_lookup. rewrite Hr0, Hn0, Hd0.
    split; [done|]. split; [by etrans | done].
  - right; right; left. split; [by dict_lookup|]. exists r, a, now.
    unfold timestamps. dict_lookup. rewrite Hr0, Ha0, Hd0.
    split; [done|]. split; [done|]. split; [by etrans | done].
  - right; right; left. split; [by dict_lookup|]. exists r, a, now.
    unfold timestamps. dict_lookup. rewrite Hr0, Ha0, Hd0.
    split; [done|]. split; [done|]. split; [|done].
    etrans; [exact H2|]. by etrans.
  - right; right; right. split; [by dict_lookup|]. exists r, a, n, now.
    unfold timestamps. dict_lookup. rewrite Hr0, Ha0, Hn0.
    split; [done|]. split; [done|]. split; [by etrans | done].
  - right; right; right. split; [by dict_lookup|]. exists r, a, n, now.
    unfold timestamps. dict_lookup. rewrite Hr0, Ha0, Hn0.
    split; [done|]. split; [done|]. split; [|done].
    etrans; [exact H3|]. by etrans.
Qed.

Lemma serve_lifecycle (PADRON : list product) (c c' : string) (r : request)
    (f : orders_file) :
  (c ≤ c')%string → (∀ now, clock_of r = Some now → now = c') →
  Forall (lifecycle c) (stored f) →
  Forall (lifecycle c') (stored (after (serve PADRON r) f)).
Proof.
  intros Hc Hnow Hf.
  assert (Forall (lifecycle c') (stored f)) as Hf'.
  { eapply Forall_impl; [done|]. intros o. by apply lifecycle_mono. }
  destruct r as [uuid now payload | o]; simpl.
  - unfold after.
    destruct (create_order PADRON uuid now payload f) as [[order|e] f'] eqn:E.
    + pose proof E as [_ Hs]%create_order_Ok. simpl. rewrite Hs.
      constructor; [|done]. rewrite <- (Hnow now eq_refl).
      revert E. unfold create_order, bind, lift, raise, ret, save_orders.
      destruct payload; try done.
      destruct (get_stripped "codigo" m); [|done].
      destruct (get_stripped "sucursal" m); [|done].
      destruct (get_stripped "observaciones" m); [|done].
      destruct (lookup_product PADRON a); [|done].
      destruct (load_orders f) as [[?|?] ?]; [|done].
      intros [= <- _]. apply lifecycle_new_order.
    + pose proof (create_order_raise PADRON uuid now payload f e) as E'.
      rewrite E in E'. specialize (E' eq_refl). by inversion E'; subst.
  - destruct (exec_stored o f) as [[e E] | (i & t & t' & Hi & Hr & _ & ->)].
    + unfold after. by rewrite E.
    + apply find_target_Some in Hi as (Hi & _).
      pose proof (Forall_lookup_1 _ _ _ _ Hf Hi) as Ht.
      apply Forall_insert; [done|].
      destruct o as [now order_id action | order_id data_url];
        simpl in Hr; destruct Hr as [_ Hr].
      * specialize (Hnow now eq_refl). subst c'.
        by eapply lifecycle_transition.
      * subst. apply lifecycle_signature. by eapply lifecycle_mono.
Qed.

Lemma serve_all_lifecycle (PADRON : list product) (c : string)
    (rs : list request) (f : orders_file) :
  clock_ok c rs → Forall (lifecycle c) (stored f) →
  Forall (lifecycle (clock_after c rs)) (stored (serve_all PADRON rs f)).
Proof.
  revert c f. induction rs as [|r rs IH]; intros c f Hok Hf; [done|].
  simpl in Hok. unfold serve_all, clock_after. simpl.
  destruct (clock_of r) as [now|] eqn:E; simpl.
  - destruct Hok as [Hc Hok]. apply IH; [done|].
    apply (serve_lifecycle PADRON c now); [done| |done].
    intros now' Hn. congruence.
  - apply IH; [done|].
    apply (serve_lifecycle PADRON c c); [done| |done].
    intros now' Hn. congruence.
Qed.

(** Under the lifecycle, a status other than pending goes with an
    arrivedAt that is set. *)
Lemma lifecycle_arrived (c : string) (o : dict) :
  lifecycle c o → get "fecha_llegada" o ≠ JNull → estado o ≠ JStr "pendiente".
Proof.
  intros [(He & r & Ht & H) | [(He & _) | [(He & _) | (He & _)]]] Hne;
    try (rewrite He; discriminate).
  unfold timestamps in Ht. congruence.
Qed.

Lemma arrived_kept (c : string) (o : op) (f : orders_file) (i : nat)
    (t t' : dict) :
  stored f !! i = Some t → lifecycle c t →
  stored (after (exec o) f) !! i = Some t' →
  get "fecha_llegada" t ≠ JNull →
  get "fecha_llegada" t' = get "fecha_llegada" t.
Proof.
  intros Hi Hl Hi' Hne.
  pose proof (lifecycle_arrived _ _ Hl Hne) as Hst.
  destruct (exec_stored o f) as [[e E] | (j & u & u' & Hj & Hr & _ & Hs)].
  - unfold after in Hi'. rewrite E in Hi'. simpl in Hi'. congruence.
  - rewrite Hs in Hi'. apply find_target_Some in Hj as (Hj & _).
    destruct (decide (j = i)) as [->|Hji].
    + rewrite list_lookup_insert_eq in Hi' by (by eapply lookup_lt_Some).
      assert (u = t) as -> by congruence. assert (u' = t') as -> by congruence.
      destruct o as [now order_id action | order_id data_url];
        simpl in Hr; destruct Hr as [_ Hr].
      * unfold get. f_equal. split_transition Hr;
          try (by rewrite !lookup_insert_ne).
        fold (estado t) in *.
        match goal with
        | H : negb _ = false |- _ =>
            apply negb_false_iff, eq_str_true in H; congruence
        end.
      * subst. unfold get. by rewrite lookup_insert_ne.
    + rewrite list_lookup_insert_ne in Hi' by done. congruence.
Qed.

(** C8, as stated, fails: notifiedAt is not set exactly once, since a
    repeated markNotified stamps it anew. *)
Lemma notified_stamped_twice :
  ¬ (∀ (f : orders_file) (o : op) (i : nat) (t t' : dict),
       stored f !! i = Some t →
       stored (after (exec o) f) !! i = Some t' →
       get "fecha_aviso" t ≠ JNull →
       get "fecha_aviso" t' = get "fecha_aviso" t).
Proof.
  intros H.
  pose proof (H (run [markArrived "2024-03-02 10:00:00" "7f3a";
                      markNotified "2024-03-03 10:00:00" "7f3a"] sample_file)
                (markNotified "2024-03-05 08:00:00" "7f3a") 0%nat _ _
                eq_refl eq_refl) as H'.
  vm_compute in H'. by specialize (H' ltac:(discriminate)).
Qed.

(** A repeated markDelivered stamps deliveredAt anew as well. *)
Example delivered_stamped_twice :
  get "fecha_entrega" <$>
    stored (after (exec (markDelivered "2024-03-06 12:00:00" "7f3a"))
              delivered_file)
  = [JStr "2024-03-06 12:00:00"].
Proof. vm_compute. reflexivity. Qed.

(** The timestamps are the clock readings: a reading earlier than the
    request puts arrivedAt before requestedAt. *)
Example arrived_before_requested :
  timestamps <$>
    stored (after (exec (markArrived "2024-02-29 23:00:00" "7f3a")) sample_file)
  = [(JStr "2024-03-01 09:00:00", JStr "2024-02-29 23:00:00", JNull, JNull)].
Proof. vm_compute. reflexivity. Qed.

(** C8, amended. Let the clock readings of a sequence of requests not
    decrease, and let every stored order have its timestamps set up to
    its status, in order (as in an empty store). Then after the
    sequence every stored order, created ones included, has arrivedAt,
    notifiedAt and deliveredAt set up to its status and no further, with
    requestedAt ≤ arrivedAt ≤ notifiedAt ≤ deliveredAt for those set;
    and arrivedAt, once set, is changed by no operation.  (notifiedAt
    and deliveredAt are stamped anew when markNotified or markDelivered
    is repeated.) *)
Theorem timestamps_in_order (PADRON : list product) (c : string)
    (rs : list request) (f : orders_file) :
  Forall (lifecycle c) (stored f) → clock_ok c rs →
  Forall (lifecycle (clock_after c rs)) (stored (serve_all PADRON rs f))
  ∧ ∀ (next : op) (i : nat) (t t' : dict),
      stored (serve_all PADRON rs f) !! i = Some t →
      stored (after (exec next) (serve_all PADRON rs f)) !! i = Some t' →
      get "fecha_llegada" t ≠ JNull →
      get "fecha_llegada" t' = get "fecha_llegada" t.
Proof.
  intros Hf Hok.
  pose proof (serve_all_lifecycle PADRON c rs f Hok Hf) as Hall.
  split; [done|]. intros next i t t' Hi Hi' Hne.
  eapply arrived_kept; [exact Hi| |exact Hi'|exact Hne].
  by eapply Forall_lookup_1.
Qed.

Lemma timestamps_in_order_witness :
  Forall (lifecycle "2024-03-04 10:00:00")
    (stored (serve_all sample_catalog
       [ CreateOrder "7f3a" "2024-03-01 09:00:00" (JObj (sample_payload "A1"));
         Engine (markArrived "2024-03-02 10:00:00" "7f3a");
         Engine (markNotified "2024-03-03 10:00:00" "7f3a");
         Engine (SaveSignature "7f3a" (JStr "data:image/png;base64,AAAA"));
         Engine (markDelivered "2024-03-04 10:00:00" "7f3a") ] Missing)).
Proof.
  apply (timestamps_in_order sample_catalog "2024-03-01 09:00:00"
    [ CreateOrder "7f3a" "2024-03-01 09:00:00" (JObj (sample_payload "A1"));
      Engine (markArrived "2024-03-02 10:00:00" "7f3a");
      Engine (markNotified "2024-03-03 10:00:00" "7f3a");
      Engine (SaveSignature "7f3a" (JStr "data:image/png;base64,AAAA"));
      Engine (markDelivered "2024-03-04 10:00:00" "7f3a") ] Missing).
  - constructor.
  - vm_compute. tauto.
Defined.

(** * Further properties *)

(** ** Text *)












Lemma upper_char_idem (c : ascii) : upper_char (upper_char c) = upper_char c.
Proof. by destruct c as [[] [] [] [] [] [] [] []]. Qed.


Lemma upper_idem (s : string) : upper (upper s) = upper s.
Proof.
  induction s as [|c s IH]; [done|]. simpl. by rewrite upper_char_idem, IH.
Qed.





(** ** Engine: targets *)

Lemma find_target_absent (order_id : string) (orders : list dict) :
  (∀ o, o ∈ orders → o !! "id" ≠ Some (JStr order_id)) →
  find_target order_id orders = None.
Proof.
  induction orders as [|o rest IH]; intros H; simpl; [done|].
  destruct (eq_str (get "id" o) order_id) eqn:E.
  - apply get_id_eq in E. destruct (H o); [by left | done].
  - rewrite IH; [done|]. intros o' Ho'. apply H. by right.
Qed.


(** Rewriting the target in place, its id kept, leaves it the target. *)
Lemma find_target_insert (order_id : string) (orders : list dict) (i : nat)
    (t t' : dict) :
  find_target order_id orders = Some (i, t) →
  t' !! "id" = Some (JStr order_id) →
  find_target order_id (<[i := t']> orders) = Some (i, t').
Proof.
  revert i. induction orders as [|o rest IH]; intros i H Hid; simpl in H; [done|].
  destruct (eq_str (get "id" o) order_id) eqn:E.
  - inversion H; subst. simpl. apply get_id_eq in Hid. by rewrite Hid.
  - destruct (find_target order_id rest) as [[j u]|] eqn:Er; [|done].
    inversion H; subst. simpl. rewrite E. by rewrite (IH j eq_refl Hid).
Qed.

Lemma load_orders_Ok (f : orders_file) (orders : list dict) :
  fst (load_orders f) = Ok orders → stored f = orders.
Proof. intros H. unfold stored. by rewrite H. Qed.



Lemma transition_entregado (now : string) (t : dict) :
  estado t = JStr "avisado" ∨ estado t = JStr "entregado" →
  truthy (get "firma" t) = true →
  transition now (JStr "entregado") t =
    Ok (<["fecha_entrega" := JStr now]> (<["estado" := JStr "entregado"]> t)).
Proof.
  intros H Hs. unfold transition. fold (estado t). simpl. rewrite Hs.
  by destruct H as [-> | ->].
Qed.

Lemma transition_id (now : string) (action : json) (t t' : dict) :
  transition now action t = Ok t' → t' !! "id" = t !! "id".
Proof. intros H. split_transition H; by rewrite !lookup_insert_ne. Qed.

(** X1. An id that no stored order has: both operations raise
    OrderNotFound, whatever the action or the blob, and leave the file
    as it was. *)
Theorem unknown_order_not_found (now order_id : string) (action data_url : json)
    (f : orders_file) (orders : list dict) :
  fst (load_orders f) = Ok orders →
  (∀ o, o ∈ orders → o !! "id" ≠ Some (JStr order_id)) →
  update_order_status now order_id action f = (Raise OrderNotFound, f)
  ∧ save_signature order_id data_url f = (Raise OrderNotFound, f).
Proof.
  intros Hl Hno. apply find_target_absent in Hno.
  pose proof (load_orders_file f) as Hf.
  unfold update_order_status, save_signature, bind.
  destruct (load_orders f) as [r f'] eqn:E. simpl in *. subst.
  cbv beta iota zeta. by rewrite Hno.
Qed.

Lemma unknown_order_not_found_witness :
  update_order_status "2024-03-02 10:00:00" "ffff" (JStr "llego") sample_file
    = (Raise OrderNotFound, sample_file)
  ∧ save_signature "ffff" (JStr "data:,") sample_file
    = (Raise OrderNotFound, sample_file).
Proof.
  apply (unknown_order_not_found _ "ffff" _ _ sample_file [sample_order]).
  - vm_compute. reflexivity.
  - intros o Ho. apply list_elem_of_singleton in Ho as ->.
    vm_compute. discriminate.
Defined.

(** X2. markDelivered succeeds exactly when the status is notified or
    delivered and the signature is truthy; it then sets status
    delivered, stamps deliveredAt and keeps the signature. *)
Theorem markDelivered_succeeds (now order_id : string) (f : orders_file)
    (i : nat) (t : dict) :
  find_target order_id (stored f) = Some (i, t) →
  let t' := <["fecha_entrega" := JStr now]> (<["estado" := JStr "entregado"]> t) in
  ((estado t = JStr "avisado" ∨ estado t = JStr "entregado")
   ∧ truthy (get "firma" t) = true →
   update_order_status now order_id (JStr "entregado") f =
     (Ok t', Json (JArr (JObj <$> <[i := t']> (stored f))))
   ∧ estado t' = JStr "entregado" ∧ get "fecha_entrega" t' = JStr now
   ∧ get "firma" t' = get "firma" t)
  ∧ (∀ u f', update_order_status now order_id (JStr "entregado") f = (Ok u, f') →
       (estado t = JStr "avisado" ∨ estado t = JStr "entregado")
       ∧ truthy (get "firma" t) = true).
Proof.
  intros Hf t'. split.
  - intros [Hst Hs]. rewrite (update_order_status_found _ _ _ _ _ _ Hf).
    rewrite (transition_entregado _ _ Hst Hs). by subst t'; dict_lookup.
  - intros u f'. rewrite (update_order_status_found _ _ _ _ _ _ Hf).
    unfold transition. fold (estado t). simpl.
    destruct (eq_str (estado t) "avisado") eqn:E1;
      destruct (eq_str (estado t) "entregado") eqn:E2; simpl;
      destruct (truthy (get "firma" t)); simpl; try done;
      rewrite ?eq_str_true in *; auto.
Qed.

Lemma markDelivered_succeeds_witness :
  update_order_status "2024-03-06 12:00:00" "7f3a" (JStr "entregado")
    delivered_file =
  (Ok (<["fecha_entrega" := JStr "2024-03-06 12:00:00"]>
         (<["estado" := JStr "entregado"]> delivered_order)),
   Json (JArr (JObj <$>
     <[0%nat := <["fecha_entrega" := JStr "2024-03-06 12:00:00"]>
                  (<["estado" := JStr "entregado"]> delivered_order)]>
       (stored delivered_file)))).
Proof.
  assert (find_target "7f3a" (stored delivered_file)
          = Some (0%nat, delivered_order)) as Hf by (vm_compute; reflexivity).
  destruct (markDelivered_succeeds "2024-03-06 12:00:00" _ _ _ _ Hf) as [H _].
  apply H. split; [right|]; vm_compute; reflexivity.
Defined.

(** ** Engine: creation and the whole lifecycle *)

Lemma lookup_product_first (PADRON : list product) (product_code : string)
    (p : product) :
  lookup_product PADRON product_code = Some p ↔
  ∃ pre post, PADRON = pre ++ p :: post ∧ codigo p = product_code
    ∧ ∀ q, q ∈ pre → codigo q ≠ product_code.
Proof.
  unfold lookup_product. induction PADRON as [|r rest IH]; simpl.
  - split; [done|]. by intros ([|??] & ? & [=] & _).
  - destruct (String.eqb_spec (codigo r) product_code) as [E|Hne].
    + split.
      * intros [= ->]. exists [], rest. split; [done|]. split; [done|].
        intros q Hq. by apply elem_of_nil in Hq.
      * intros ([|r' pre] & post & Heq & Hc & Hpre); simpl in Heq.
        -- by inversion Heq.
        -- inversion Heq; subst r'. destruct (Hpre r); [by left | done].
    + rewrite IH. split.
      * intros (pre & post & -> & Hc & Hpre). exists (r :: pre), post.
        split; [done|]. split; [done|]. intros q [->|Hq]%elem_of_cons; auto.
      * intros ([|r' pre] & post & Heq & Hc & Hpre); simpl in Heq.
        -- inversion Heq; subst. done.
        -- inversion Heq; subst. exists pre, post. split; [done|].
           split; [done|]. intros q Hq. apply Hpre. by right.
Qed.

(** What a [create_order] that returns has built. *)
Lemma create_order_new (PADRON : list product) (uuid now : string)
    (payload : json) (f f' : orders_file) (order : dict) :
  create_order PADRON uuid now payload f = (Ok order, f') →
  ∃ sucursal cantidad obs p,
    order = new_order uuid now sucursal cantidad obs p ∧ p ∈ PADRON.
Proof.
  unfold create_order, bind, lift, raise, ret, save_orders.
  destruct payload; try done.
  destruct (get_stripped "codigo" m) as [code|]; [|done].
  destruct (get_stripped "sucursal" m) as [suc|]; [|done].
  destruct (get_stripped "observaciones" m) as [obs|]; [|done].
  destruct (lookup_product PADRON code) as [p|] eqn:Ep; [|done].
  destruct (load_orders f) as [[?|?] ?]; [|done].
  intros [= <- _]. eexists _, _, _, p. split; [done|].
  apply lookup_product_first in Ep as (pre & post & -> & _).
  apply elem_of_app. right. by left.
Qed.







(** ** Engine: what sequences of requests keep *)












(** X8. Loading and saving back migrates once: on a file that loads,
    the file written is of the current schema, reads as the file did,
    and a second load and save leaves it as it is. *)
Theorem resave_migrates (f : orders_file) (orders : list dict) :
  fst (load_orders f) = Ok orders →
  valid_store (after resave f)
  ∧ stored (after resave f) = orders
  ∧ resave (after resave f) = (Ok tt, after resave f).
Proof.
  intros Hl. pose proof (load_orders_Ok _ _ Hl) as Hs.
  assert (after resave f = Json (JArr (JObj <$> orders))) as E.
  { unfold after, resave, bind.
    destruct (load_orders_stored f) as [-> | (e & He & _)]; [by rewrite Hs|].
    by rewrite He in Hl. }
  assert (Forall has_fields orders) as Hh
    by (rewrite <- Hs; apply stored_has_fields).
  rewrite E. split; [by exists orders|]. split; [by apply stored_saved|].
  unfold resave, bind, save_orders. simpl.
  by rewrite normalize_all_objects, normalize_fmap_id.
Qed.

Lemma resave_migrates_witness :
  valid_store (after resave (Json (JArr [JObj legacy_order; JObj sample_order])))
  ∧ stored (after resave (Json (JArr [JObj legacy_order; JObj sample_order])))
    = [normalize legacy_order; sample_order].
Proof.
  destruct (resave_migrates (Json (JArr [JObj legacy_order; JObj sample_order]))
              [normalize legacy_order; sample_order]) as (H1 & H2 & _).
  - vm_compute. reflexivity.
  - split; [exact H1 | exact H2].
Defined.



(** X10. Notifying or delivering again only moves the timestamp: when
    markNotified (or markDelivered) has taken effect, repeating it
    leaves the file that the later call alone would have left. *)
Theorem repeated_action_restamps (now1 now2 order_id : string) (action : json)
    (f : orders_file) (i : nat) (t t1 : dict) :
  find_target order_id (stored f) = Some (i, t) →
  action = JStr "avisado" ∨ action = JStr "entregado" →
  transition now1 action t = Ok t1 →
  after (update_order_status now2 order_id action)
    (after (update_order_status now1 order_id action) f)
  = after (update_order_status now2 order_id action) f.
Proof.
  intros Hf Ha Ht1. pose proof (find_target_Some _ _ _ _ Hf) as (Hi & Hid & _).
  assert (has_fields t) as Hh
    by (by eapply Forall_lookup_1; [apply stored_has_fields|]).
  assert (∃ t2, transition now2 action t = Ok t2
                ∧ transition now2 action t1 = Ok t2) as (t2 & Ht2 & Ht12).
  { destruct Ha as [-> | ->]; unfold transition in *; fold (estado t) in *;
      simpl in *.
    - destruct (eq_str (estado t) "llegado" || eq_str (estado t) "avisado");
        [|done]. simpl in *. inversion Ht1; subst. eexists. split; [done|].
      dict_lookup. f_equal. apply map_eq. intros k.
      rewrite !lookup_insert. by repeat case_decide.
    - destruct (eq_str (estado t) "avisado" || eq_str (estado t) "entregado");
        [|done]. simpl in *.
      destruct (truthy (get "firma" t)) eqn:Hs; [|done]. simpl in *.
      inversion Ht1; subst. eexists. split; [done|].
      dict_lookup. rewrite Hs. simpl. f_equal. apply map_eq. intros k.
      rewrite !lookup_insert. by repeat case_decide. }
  assert (has_fields t1) as Hh1 by (by eapply transition_has_fields).
  assert (find_target order_id
            (stored (Json (JArr (JObj <$> <[i := t1]> (stored f)))))
          = Some (i, t1)) as Hf1.
  { rewrite stored_insert by done.
    apply (find_target_insert _ _ _ t); [done|].
    by rewrite (transition_id _ _ _ _ Ht1). }
  unfold after at 2 3.
  rewrite !(update_order_status_found _ _ _ _ _ _ Hf), Ht1, Ht2. simpl.
  unfold after. rewrite (update_order_status_found _ _ _ _ _ _ Hf1), Ht12.
  simpl. rewrite stored_insert by done. by rewrite list_insert_insert_eq.
Qed.

Lemma repeated_action_restamps_witness :
  after (update_order_status "2024-03-06 12:00:00" "7f3a" (JStr "entregado"))
    (after (update_order_status "2024-03-05 12:00:00" "7f3a" (JStr "entregado"))
       delivered_file)
  = after (update_order_status "2024-03-06 12:00:00" "7f3a" (JStr "entregado"))
      delivered_file.
Proof.
  apply (repeated_action_restamps "2024-03-05 12:00:00" "2024-03-06 12:00:00"
           "7f3a" (JStr "entregado") delivered_file 0%nat delivered_order
           (<["fecha_entrega" := JStr "2024-03-05 12:00:00"]>
              (<["estado" := JStr "entregado"]> delivered_order))).
  - vm_compute. reflexivity.
  - by right.
  - vm_compute. reflexivity.
Defined.

(** ** HTTP handlers *)

Lemma respond_file (r : result dict * orders_file) : snd (respond r) = snd r.
Proof. by destruct r as [[?|?] ?]. Qed.

Lemma api_orders_file (f : orders_file) : snd (api_orders f) = f.
Proof.
  unfold api_orders. by destruct (load_orders_stored f) as [-> | (e & -> & _)].
Qed.

(** The file a request leaves is the one it found, or the one an engine
    call left; for a signature, a call with a truthy blob. *)
Lemma handle_file (PADRON : list product) (r : http_request)
    (f : orders_file) :
  snd (handle PADRON r f) = f
  ∨ (∃ uuid now data,
       snd (handle PADRON r f) = after (create_order PADRON uuid now data) f)
  ∨ (∃ now order_id action,
       snd (handle PADRON r f)
       = after (exec (UpdateStatus now order_id action)) f)
  ∨ (∃ order_id blob, truthy blob = true
       ∧ snd (handle PADRON r f) = after (exec (SaveSignature order_id blob)) f).
Proof.
  destruct r as [q| |uuid now data|now order_id data|order_id data]; simpl.
  - by left.
  - left. apply api_orders_file.
  - right; left. exists uuid, now, data. apply respond_file.
  - unfold api_update_order. destruct data; try by left.
    right; right; left. eexists now, order_id, _. apply respond_file.
  - unfold api_save_signature. destruct data; try by left.
    destruct (truthy (get "firma" m)) eqn:E; simpl; [|by left].
    right; right; right. exists order_id, (get "firma" m).
    split; [done|]. apply respond_file.
Qed.

Lemma rewrites_signed (o : op) (t t' : dict) :
  match o with
  | SaveSignature _ blob => truthy blob = true
  | UpdateStatus _ _ _ => True
  end →
  rewrites o t t' → signed_if_delivered t → signed_if_delivered t'.
Proof.
  unfold signed_if_delivered.
  destruct o as [now order_id action | order_id blob]; simpl;
    intros Hb [_ Hr] Ht.
  - split_transition Hr; dict_lookup; try done.
    intros _. by apply negb_false_iff.
  - subst. dict_lookup. done.
Qed.

Lemma exec_signed (o : op) (f : orders_file) :
  match o with
  | SaveSignature _ blob => truthy blob = true
  | UpdateStatus _ _ _ => True
  end →
  Forall signed_if_delivered (stored f) →
  Forall signed_if_delivered (stored (after (exec o) f)).
Proof.
  intros Hb Hf.
  destruct (exec_stored o f) as [[e E] | (i & t & t' & Hi & Hr & _ & ->)].
  - unfold after. by rewrite E.
  - apply find_target_Some in Hi as (Hi & _).
    apply Forall_insert; [done|].
    eapply rewrites_signed; [done..|]. by eapply Forall_lookup_1.
Qed.

Lemma create_order_signed (PADRON : list product) (uuid now : string)
    (data : json) (f : orders_file) :
  Forall signed_if_delivered (stored f) →
  Forall signed_if_delivered (stored (after (create_order PADRON uuid now data) f)).
Proof.
  intros Hf. unfold after.
  destruct (create_order PADRON uuid now data f) as [[order|e] f'] eqn:E.
  - pose proof (create_order_new _ _ _ _ _ _ _ E) as (?&?&?&?& -> & _).
    apply create_order_Ok in E as [_ Hs]. simpl. rewrite Hs. by constructor.
  - pose proof (create_order_raise PADRON uuid now data f e) as E'.
    rewrite E in E'. specialize (E' eq_refl). by inversion E'; subst.
Qed.

(** X11. Through the HTTP interface a delivered order always carries a
    signature: if every stored order that is delivered has a truthy
    signature (as in an empty store), so has every one after any
    sequence of requests.  The signature handler refuses an empty blob;
    [save_signature] itself would store it. *)
Theorem delivered_orders_are_signed (PADRON : list product)
    (rs : list http_request) (f : orders_file) :
  Forall signed_if_delivered (stored f) →
  Forall signed_if_delivered (stored (handle_all PADRON rs f)).
Proof.
  intros Hf. induction rs as [|r rs IH] using rev_ind; [done|].
  unfold handle_all in *. rewrite foldl_app. simpl.
  set (f1 := foldl _ f rs) in *.
  destruct (handle_file PADRON r f1)
    as [-> | [(uuid & now & data & ->)
      | [(now & order_id & action & ->) | (order_id & blob & Hb & ->)]]].
  - done.
  - by apply create_order_signed.
  - by apply exec_signed.
  - by apply exec_signed.
Qed.

Lemma delivered_orders_are_signed_witness :
  Forall signed_if_delivered
    (stored (handle_all sample_catalog
       [ POST_orders "9b2e" "2024-03-05 09:00:00" (JObj (sample_payload "A1"));
         POST_estado "2024-03-06 10:00:00" "9b2e"
           (JObj {[ "accion" := JStr "llego" ]});
         POST_firma "9b2e" (JObj {[ "firma" := JStr "" ]});
         POST_estado "2024-03-07 10:00:00" "9b2e"
           (JObj {[ "accion" := JStr "avisado" ]});
         POST_firma "9b2e" (JObj {[ "firma" := JStr "data:image/png;base64,AAAA" ]});
         POST_estado "2024-03-08 10:00:00" "9b2e"
           (JObj {[ "accion" := JStr "entregado" ]}) ] Missing)).
Proof. apply delivered_orders_are_signed. constructor. Defined.

(** The engine call alone does store an empty signature on a delivered
    order. *)
Example save_signature_unsigns :
  (λ o, (estado o, get "firma" o)) <$>
    stored (after (save_signature "7f3a" JNull) delivered_file)
  = [(JStr "entregado", JNull)].
Proof. vm_compute. reflexivity. Qed.



(** ** Search and arrival policy *)
















(** ** Catalog loading *)










